(** * src/utils/settings.py: configuration management of the web scraper

    Two layers of the module are embedded.

    - [Definition_time]: what the interpreter does when the module is
      imported: the import statements, the two class statements, and the
      names each of them loads while the classes are being built.
    - [Settings]: what the methods of [ScraperConfig] and [ConfigManager]
      do when they are called, as state passing over the manager object and
      the outside world (files and environment variables). *)

From Stdlib Require Import ZArith String List Floats.
From stdpp Require Import gmap strings list.

Set Warnings "-register-all".
Open Scope string_scope.

(** ** Exceptions and outcomes shared by both layers *)

Inductive exn :=
| NameError (name : string)
| ModuleNotFoundError (name : string)
| ImportError (name : string)
| KeyNotFound (key : string).

Inductive outcome (A : Type) :=
| Return (a : A)
| Raise (e : exn).
Arguments Return {A} a.
Arguments Raise {A} e.

Definition raises {A} (o : outcome A) : bool :=
  match o with Return _ => false | Raise _ => true end.

(** ** Import of the module *)

Module Definition_time.

(** Expressions that occur in annotations, defaults, decorators and class
    attribute values of settings.py.  Literals, [None], [True] and [False]
    load no name. *)
Inductive expr :=
| Name (id : string)
| Constant
| Subscript (value : expr) (slice : list expr)
| Call (func : expr) (keywords : list expr).

(** The names an expression loads, in evaluation order. *)
Fixpoint loads (e : expr) : list string :=
  match e with
  | Name id => [id]
  | Constant => []
  | Subscript v s => loads v ++ flat_map loads s
  | Call f ks => loads f ++ flat_map loads ks
  end.

Record arg := Arg {
  arg_name : string;
  annotation : option expr;
  default : option expr
}.

(** Statements of a class body.  A function body is not run by [def]. *)
Inductive member :=
| DocString
| AnnAssign (target : string) (ann : expr) (value : expr)
| FunctionDef (name : string) (args : list arg) (returns : option expr).

Inductive stmt :=
| ModuleDocString
| Import (module : string)
| ImportFrom (module : string) (names : list string)
| ClassDef (decorator_list : list expr) (name : string) (body : list member).

(** Annotations are evaluated when the [def] or the annotated assignment
    runs (CPython up to 3.13 without [from __future__ import annotations]),
    or only when somebody asks for them (CPython 3.14). *)
Inductive annotation_mode := Eager | Deferred.

(** The names of the [builtins] module that settings.py could reach. *)
Definition builtins : gset string :=
  list_to_set
    ["abs"; "all"; "any"; "ascii"; "bin"; "bool"; "breakpoint"; "bytearray";
     "bytes"; "callable"; "chr"; "classmethod"; "compile"; "complex";
     "delattr"; "dict"; "dir"; "divmod"; "enumerate"; "eval"; "exec";
     "filter"; "float"; "format"; "frozenset"; "getattr"; "globals";
     "hasattr"; "hash"; "help"; "hex"; "id"; "input"; "int"; "isinstance";
     "issubclass"; "iter"; "len"; "list"; "locals"; "map"; "max";
     "memoryview"; "min"; "next"; "object"; "oct"; "open"; "ord"; "pow";
     "print"; "property"; "range"; "repr"; "reversed"; "round"; "set";
     "setattr"; "slice"; "sorted"; "staticmethod"; "str"; "sum"; "super";
     "tuple"; "type"; "vars"; "zip"; "__import__"].

(** Name lookup: class namespace, then module globals, then builtins. *)
Definition bound (locals globals : gset string) (id : string) : bool :=
  bool_decide (id ∈ locals) || bool_decide (id ∈ globals)
  || bool_decide (id ∈ builtins).

Fixpoint first_unbound (locals globals : gset string) (ids : list string)
  : option string :=
  match ids with
  | [] => None
  | id :: rest =>
      if bound locals globals id then first_unbound locals globals rest
      else Some id
  end.

Definition eval (locals globals : gset string) (e : expr) : outcome unit :=
  match first_unbound locals globals (loads e) with
  | None => Return tt
  | Some id => Raise (NameError id)
  end.

Fixpoint eval_all (locals globals : gset string) (es : list expr)
  : outcome unit :=
  match es with
  | [] => Return tt
  | e :: rest =>
      match eval locals globals e with
      | Return _ => eval_all locals globals rest
      | Raise x => Raise x
      end
  end.

Definition opt_exprs (mode : annotation_mode) (os : list (option expr))
  : list expr :=
  match mode with
  | Eager => omap id os
  | Deferred => []
  end.

(** One statement of a class body; the result is the class namespace. *)
Definition exec_member (mode : annotation_mode) (globals : gset string)
    (locals : gset string) (m : member) : outcome (gset string) :=
  match m with
  | DocString => Return locals
  | AnnAssign target ann value =>
      (* the value is computed and stored, then the annotation *)
      match eval locals globals value with
      | Raise x => Raise x
      | Return _ =>
          let locals' := {[target]} ∪ locals in
          match eval_all locals' globals (opt_exprs mode [Some ann]) with
          | Raise x => Raise x
          | Return _ => Return locals'
          end
      end
  | FunctionDef name args returns =>
      (* defaults first, then parameter annotations, then the return one *)
      match eval_all locals globals (omap default args) with
      | Raise x => Raise x
      | Return _ =>
          match eval_all locals globals
                  (opt_exprs mode (map annotation args ++ [returns])) with
          | Raise x => Raise x
          | Return _ => Return ({[name]} ∪ locals)
          end
      end
  end.

Fixpoint exec_body (mode : annotation_mode) (globals locals : gset string)
    (body : list member) : outcome (gset string) :=
  match body with
  | [] => Return locals
  | m :: rest =>
      match exec_member mode globals locals m with
      | Raise x => Raise x
      | Return locals' => exec_body mode globals locals' rest
      end
  end.

(** [modules] maps every importable module to the names it exports. *)
Definition exec_stmt (mode : annotation_mode)
    (modules : gmap string (gset string)) (globals : gset string) (s : stmt)
  : outcome (gset string) :=
  match s with
  | ModuleDocString => Return globals
  | Import m =>
      match modules !! m with
      | None => Raise (ModuleNotFoundError m)
      | Some _ => Return ({[m]} ∪ globals)
      end
  | ImportFrom m names =>
      match modules !! m with
      | None => Raise (ModuleNotFoundError m)
      | Some exports =>
          match List.find (fun n => negb (bool_decide (n ∈ exports))) names with
          | Some n => Raise (ImportError n)
          | None => Return (list_to_set names ∪ globals)
          end
      end
  | ClassDef decorator_list name body =>
      match eval_all globals globals decorator_list with
      | Raise x => Raise x
      | Return _ =>
          match exec_body mode globals ∅ body with
          | Raise x => Raise x
          | Return _ => Return ({[name]} ∪ globals)
          end
      end
  end.

Fixpoint exec_module (mode : annotation_mode)
    (modules : gmap string (gset string)) (globals : gset string)
    (m : list stmt) : outcome (gset string) :=
  match m with
  | [] => Return globals
  | s :: rest =>
      match exec_stmt mode modules globals s with
      | Raise x => Raise x
      | Return globals' => exec_module mode modules globals' rest
      end
  end.

Definition import_module (mode : annotation_mode)
    (modules : gmap string (gset string)) (m : list stmt)
  : outcome (gset string) :=
  exec_module mode modules ∅ m.

(** *** The module, statement by statement *)

Definition Optional_ (e : expr) : expr := Subscript (Name "Optional") [e].
Definition Dict_ (k v : expr) : expr := Subscript (Name "Dict") [k; v].
Definition self : arg := Arg "self" None None.
Definition param (name : string) (ann : expr) : arg :=
  Arg name (Some ann) None.
Definition param_default (name : string) (ann : expr) : arg :=
  Arg name (Some ann) (Some Constant).

Definition ScraperConfig_body : list member :=
  [ DocString;
    AnnAssign "request_timeout" (Name "int") Constant;
    AnnAssign "max_retries" (Name "int") Constant;
    AnnAssign "retry_delay" (Name "float") Constant;
    AnnAssign "user_agent" (Name "str") Constant;
    AnnAssign "requests_per_second" (Name "float") Constant;
    AnnAssign "concurrent_requests" (Name "int") Constant;
    AnnAssign "respect_robots_txt" (Name "bool") Constant;
    AnnAssign "output_format" (Name "str") Constant;
    AnnAssign "output_directory" (Name "str") Constant;
    AnnAssign "filename_template" (Name "str") Constant;
    AnnAssign "html_parser" (Name "str") Constant;
    AnnAssign "encoding" (Name "str") Constant;
    AnnAssign "enable_cookies" (Name "bool") Constant;
    AnnAssign "session_persistence" (Name "bool") Constant;
    AnnAssign "log_level" (Name "str") Constant;
    AnnAssign "log_file" (Optional_ (Name "str")) Constant;
    AnnAssign "enable_request_logging" (Name "bool") Constant;
    AnnAssign "enable_caching" (Name "bool") Constant;
    AnnAssign "cache_directory" (Name "str") Constant;
    AnnAssign "enable_compression" (Name "bool") Constant;
    AnnAssign "custom_headers" (Dict_ (Name "str") (Name "str"))
      (Call (Name "field") [Name "dict"]);
    AnnAssign "proxy_settings" (Dict_ (Name "str") (Name "str"))
      (Call (Name "field") [Name "dict"]);
    FunctionDef "__post_init__" [self] None;
    FunctionDef "_validate_config" [self] (Some Constant) ].

Definition ConfigManager_body : list member :=
  [ DocString;
    FunctionDef "__init__"
      [self; param_default "config_file" (Optional_ (Name "str"))] None;
    FunctionDef "load_from_file" [self; param "filepath" (Name "str")]
      (Some Constant);
    FunctionDef "save_to_file"
      [self; param "filepath" (Name "str");
       param_default "format" (Name "str")] (Some Constant);
    FunctionDef "load_from_dict"
      [self; param "config_dict" (Dict_ (Name "str") (Name "Any"))]
      (Some Constant);
    FunctionDef "_apply_environment_overrides" [self] (Some Constant);
    FunctionDef "get"
      [self; param "key" (Name "str"); param_default "default" (Name "Any")]
      (Some (Name "Any"));
    FunctionDef "set"
      [self; param "key" (Name "str"); param "value" (Name "Any")]
      (Some Constant);
    FunctionDef "update"
      [self; param "updates" (Dict_ (Name "str") (Name "Any"))]
      (Some Constant);
    FunctionDef "create_template" [self; param "filepath" (Name "str")]
      (Some Constant);
    FunctionDef "validate" [self]
      (Some (Subscript (Name "List") [Name "str"]));
    FunctionDef "get_profile" [self; param "profile_name" (Name "str")]
      (Some (Dict_ (Name "str") (Name "Any")));
    FunctionDef "set_profile"
      [self; param "profile_name" (Name "str");
       param "profile_config" (Dict_ (Name "str") (Name "Any"))]
      (Some Constant);
    FunctionDef "switch_profile" [self; param "profile_name" (Name "str")]
      (Some Constant);
    FunctionDef "export_config" [self]
      (Some (Dict_ (Name "str") (Name "Any")));
    FunctionDef "reload" [self] (Some Constant);
    FunctionDef "watch_for_changes"
      [self; param_default "callback" (Optional_ (Name "callable"))]
      (Some Constant);
    FunctionDef "get_effective_config" [self]
      (Some (Name "ScraperConfig")) ].

Definition settings_py : list stmt :=
  [ ModuleDocString;
    Import "os";
    Import "yaml";
    Import "json";
    ImportFrom "typing" ["Dict"; "Any"; "Optional"; "Union"];
    ImportFrom "dataclasses" ["dataclass"; "field"];
    ImportFrom "pathlib" ["Path"];
    ClassDef [Name "dataclass"] "ScraperConfig" ScraperConfig_body;
    ClassDef [] "ConfigManager" ConfigManager_body ].

(** An interpreter with PyYAML installed: every module the file imports is
    there, and [typing] does export [List]. *)
Definition site : gmap string (gset string) :=
  list_to_map
    [ ("os", list_to_set ["path"; "environ"; "getenv"]);
      ("yaml", list_to_set ["safe_load"; "safe_dump"]);
      ("json", list_to_set ["load"; "loads"; "dump"; "dumps"]);
      ("typing",
        list_to_set ["Dict"; "Any"; "Optional"; "Union"; "List"; "Tuple"]);
      ("dataclasses", list_to_set ["dataclass"; "field"; "fields"; "asdict"]);
      ("pathlib", list_to_set ["Path"; "PurePath"]) ].

(** The module as it would read with [List] added to the typing import. *)
Definition settings_py_importing_List : list stmt :=
  [ ModuleDocString;
    Import "os";
    Import "yaml";
    Import "json";
    ImportFrom "typing" ["Dict"; "Any"; "Optional"; "Union"; "List"];
    ImportFrom "dataclasses" ["dataclass"; "field"];
    ImportFrom "pathlib" ["Path"];
    ClassDef [Name "dataclass"] "ScraperConfig" ScraperConfig_body;
    ClassDef [] "ConfigManager" ConfigManager_body ].

End Definition_time.
(** ** The classes at run time *)

Module Settings.

(** Python values that travel through the untyped parameters ([Any],
    [Dict[str, Any]]).  [int] is unbounded, [float] is binary64. *)
Inductive value :=
| VNone
| VBool (b : bool)
| VInt (n : Z)
| VFloat (x : float)
| VStr (s : string)
| VDict (d : gmap string value).

(** *** class ScraperConfig *)

Record ScraperConfig := {
  (* HTTP Settings *)
  request_timeout : Z;
  max_retries : Z;
  retry_delay : float;
  user_agent : string;
  (* Rate Limiting *)
  requests_per_second : float;
  concurrent_requests : Z;
  respect_robots_txt : bool;
  (* Output Settings *)
  output_format : string;
  output_directory : string;
  filename_template : string;
  (* Parsing Settings *)
  html_parser : string;
  encoding : string;
  (* Session Settings *)
  enable_cookies : bool;
  session_persistence : bool;
  (* Logging Settings *)
  log_level : string;
  log_file : option string;
  enable_request_logging : bool;
  (* Advanced Settings *)
  enable_caching : bool;
  cache_directory : string;
  enable_compression : bool;
  (* Custom Settings *)
  custom_headers : gmap string string;
  proxy_settings : gmap string string
}.

(** The declared defaults, as the generated [__init__] assigns them when it
    is called without arguments. *)
Definition ScraperConfig_defaults : ScraperConfig := {|
  request_timeout := 30;
  max_retries := 3;
  retry_delay := 1.0%float;
  user_agent := "WebScraper/1.0";
  requests_per_second := 1.0%float;
  concurrent_requests := 1;
  respect_robots_txt := true;
  output_format := "json";
  output_directory := "./data";
  filename_template := "{domain}_{timestamp}";
  html_parser := "lxml";
  encoding := "utf-8";
  enable_cookies := true;
  session_persistence := true;
  log_level := "INFO";
  log_file := None;
  enable_request_logging := false;
  enable_caching := true;
  cache_directory := "./cache";
  enable_compression := true;
  custom_headers := ∅;
  proxy_settings := ∅
|}.

(** [_validate_config]: the body is [pass]. *)
Definition _validate_config (self : ScraperConfig) : outcome value :=
  Return VNone.

Definition __post_init__ (self : ScraperConfig) : outcome value :=
  match _validate_config self with
  | Return _ => Return VNone
  | Raise e => Raise e
  end.

(** [ScraperConfig()] *)
Definition ScraperConfig_new : outcome ScraperConfig :=
  let self := ScraperConfig_defaults in
  match __post_init__ self with
  | Return _ => Return self
  | Raise e => Raise e
  end.

(** The dataclass fields in declaration order, each with the attribute it
    reads ([dataclasses.fields], [getattr]). *)
Definition opt_str (o : option string) : value :=
  match o with None => VNone | Some s => VStr s end.
Definition str_dict (d : gmap string string) : value := VDict (VStr <$> d).

Definition fields : list (string * (ScraperConfig -> value)) :=
  [ ("request_timeout", fun c => VInt (request_timeout c));
    ("max_retries", fun c => VInt (max_retries c));
    ("retry_delay", fun c => VFloat (retry_delay c));
    ("user_agent", fun c => VStr (user_agent c));
    ("requests_per_second", fun c => VFloat (requests_per_second c));
    ("concurrent_requests", fun c => VInt (concurrent_requests c));
    ("respect_robots_txt", fun c => VBool (respect_robots_txt c));
    ("output_format", fun c => VStr (output_format c));
    ("output_directory", fun c => VStr (output_directory c));
    ("filename_template", fun c => VStr (filename_template c));
    ("html_parser", fun c => VStr (html_parser c));
    ("encoding", fun c => VStr (encoding c));
    ("enable_cookies", fun c => VBool (enable_cookies c));
    ("session_persistence", fun c => VBool (session_persistence c));
    ("log_level", fun c => VStr (log_level c));
    ("log_file", fun c => opt_str (log_file c));
    ("enable_request_logging", fun c => VBool (enable_request_logging c));
    ("enable_caching", fun c => VBool (enable_caching c));
    ("cache_directory", fun c => VStr (cache_directory c));
    ("enable_compression", fun c => VBool (enable_compression c));
    ("custom_headers", fun c => str_dict (custom_headers c));
    ("proxy_settings", fun c => str_dict (proxy_settings c)) ].

Fixpoint assoc {A} (name : string) (l : list (string * A)) : option A :=
  match l with
  | [] => None
  | (n, a) :: rest => if String.eqb name n then Some a else assoc name rest
  end.

Definition getattr (c : ScraperConfig) (name : string) : option value :=
  match assoc name fields with
  | Some read => Some (read c)
  | None => None
  end.

(** *** The world outside the process, and the manager object *)

Record world := World {
  files : gmap string string;      (* regular files: path -> contents *)
  environ : gmap string string;    (* os.environ *)
  others : gset string             (* directories and other entries *)
}.

Record ConfigManager := {
  config_file : option string;
  config : ScraperConfig;
  env_prefix : string;
  _config_cache : gmap string value
}.

Record state := State {
  outside : world;
  self : ConfigManager
}.

(** Method calls: state passing with exceptions. *)
Definition M (A : Type) : Type := state -> outcome A * state.

Definition ret {A} (a : A) : M A := fun st => (Return a, st).

Definition bind {A B} (c : M A) (k : A -> M B) : M B :=
  fun st =>
    match c st with
    | (Return a, st') => k a st'
    | (Raise e, st') => (Raise e, st')
    end.

Notation "x <- c ;; k" := (bind c (fun x => k))
  (at level 100, c at next level, right associativity).
Notation "c ;; k" := (bind c (fun _ => k))
  (at level 100, right associativity).

(** A body that is only [pass] falls off its end and returns [None]. *)
Definition pass : M value := ret VNone.

Definition result {A} (r : outcome A * state) : outcome A := fst r.
Definition after {A} (r : outcome A * state) : state := snd r.

(** [os.path.exists]: true for a regular file and for a directory or any
    other entry under that path. *)
Definition path_exists (w : world) (path : string) : bool :=
  bool_decide (is_Some (files w !! path)) || bool_decide (path ∈ others w).

Definition os_path_exists (path : string) : M bool :=
  fun st => (Return (path_exists (outside st) path), st).

(** *** class ConfigManager *)

Definition load_from_file (filepath : string) : M value := pass.

Definition save_to_file (filepath : string) (format : option string)
  : M value :=
  let format := default "yaml" format in
  pass.

Definition load_from_dict (config_dict : gmap string value) : M value := pass.

Definition _apply_environment_overrides : M value := pass.

Definition get (key : string) (default_ : option value) : M value :=
  let default_ := default VNone default_ in
  pass.

Definition set (key : string) (val : value) : M value := pass.

Definition update (updates : gmap string value) : M value := pass.

Definition create_template (filepath : string) : M value := pass.

Definition validate : M value := pass.

Definition get_profile (profile_name : string) : M value := pass.

Definition set_profile (profile_name : string)
    (profile_config : gmap string value) : M value := pass.

Definition switch_profile (profile_name : string) : M value := pass.

Definition export_config : M value := pass.

Definition reload : M value := pass.

Definition watch_for_changes
    (callback : option (outcome ScraperConfig -> M value)) : M value :=
  let callback := default None (Some <$> callback) in
  pass.

Definition get_effective_config : M value := pass.

(** [if config_file and os.path.exists(config_file)]: [None] and the empty
    string are false, and [and] does not look at the disk for them. *)
Definition truthy (s : option string) : bool :=
  match s with
  | None => false
  | Some s => negb (String.eqb s "")
  end.

Definition __init__tail (config_file : option string) : M value :=
  (if truthy config_file then
     let path := default "" config_file in
     there <- os_path_exists path ;;
     if there : bool then load_from_file path else ret VNone
   else ret VNone) ;;
  _apply_environment_overrides ;;
  ret VNone.

(** [ConfigManager(config_file)]: the four attribute assignments of
    [__init__], then the rest of its body on the object they make. *)
Definition ConfigManager_new (config_file : option string) (w : world)
  : outcome ConfigManager * world :=
  match ScraperConfig_new with
  | Raise e => (Raise e, w)
  | Return cfg =>
      let self0 := {| config_file := config_file;
                      config := cfg;
                      env_prefix := "SCRAPER_";
                      _config_cache := ∅ |} in
      match __init__tail config_file (State w self0) with
      | (Return _, st) => (Return (self st), outside st)
      | (Raise e, st) => (Raise e, outside st)
      end
  end.

(** The object a constructor call makes, whatever the disk and the
    environment hold. *)
Definition fresh (config_file : option string) : ConfigManager :=
  {| config_file := config_file;
     config := ScraperConfig_defaults;
     env_prefix := "SCRAPER_";
     _config_cache := ∅ |}.

(** Worlds used below. *)
Definition empty_world : world := World ∅ ∅ ∅.

Definition precedence_world : world :=
  World {[ "config.yaml" := "requests_per_second: 2" ]}
        {[ "SCRAPER_REQUESTS_PER_SECOND" := "5" ]}
        ∅.

Definition bad_batch : gmap string value :=
  {[ "request_timeout" := VInt (-1); "output_format" := VStr "bogus" ]}.

Definition good_batch : gmap string value :=
  {[ "request_timeout" := VInt 10 ]}.

End Settings.

(** ** Which imports of a module an interpreter can serve *)

Module Import_resolution.
Import Definition_time.

(** An import statement is served when the module is there and exports
    every name asked for; other statements ask nothing of the importer. *)
Definition import_ok (modules : gmap string (gset string)) (s : stmt)
  : bool :=
  match s with
  | Import m => bool_decide (is_Some (modules !! m))
  | ImportFrom m names =>
      match modules !! m with
      | Some exports => forallb (fun n => bool_decide (n ∈ exports)) names
      | None => false
      end
  | _ => true
  end.

Definition imports_ok (modules : gmap string (gset string))
    (m : list stmt) : bool :=
  forallb (import_ok modules) m.

(** Whether an import returned with the name bound in the module. *)
Definition binds (o : outcome (gset string)) (n : string) : bool :=
  match o with
  | Return globals => bool_decide (n ∈ globals)
  | Raise _ => false
  end.

End Import_resolution.

(** ** [__init__] under method overriding

    [__init__] reaches [load_from_file] and [_apply_environment_overrides]
    through [self], so a subclass that overrides them changes what the
    constructor runs.  The bodies below are those of [__init__] with the two
    methods taken from the object's class. *)

Module Subclass.
Import Settings.

Section Overridden.

Variable load_from_file' : string -> M value.
Variable _apply_environment_overrides' : M value.

Definition __init__tail' (config_file : option string) : M value :=
  (if truthy config_file then
     let path := default "" config_file in
     there <- os_path_exists path ;;
     if there : bool then load_from_file' path else ret VNone
   else ret VNone) ;;
  _apply_environment_overrides' ;;
  ret VNone.

Definition ConfigManager_new' (config_file : option string) (w : world)
  : outcome ConfigManager * world :=
  match ScraperConfig_new with
  | Raise e => (Raise e, w)
  | Return cfg =>
      let self0 := {| config_file := config_file;
                      config := cfg;
                      env_prefix := "SCRAPER_";
                      _config_cache := ∅ |} in
      match __init__tail' config_file (State w self0) with
      | (Return _, st) => (Return (self st), outside st)
      | (Raise e, st) => (Raise e, outside st)
      end
  end.

End Overridden.

(** Two overriding methods that do write the attribute, for the examples:
    the file gives requests_per_second 2.0, the environment 5.0. *)
Definition with_requests_per_second (x : float) (c : ScraperConfig)
  : ScraperConfig :=
  {| request_timeout := request_timeout c;
     max_retries := max_retries c;
     retry_delay := retry_delay c;
     user_agent := user_agent c;
     requests_per_second := x;
     concurrent_requests := concurrent_requests c;
     respect_robots_txt := respect_robots_txt c;
     output_format := output_format c;
     output_directory := output_directory c;
     filename_template := filename_template c;
     html_parser := html_parser c;
     encoding := encoding c;
     enable_cookies := enable_cookies c;
     session_persistence := session_persistence c;
     log_level := log_level c;
     log_file := log_file c;
     enable_request_logging := enable_request_logging c;
     enable_caching := enable_caching c;
     cache_directory := cache_directory c;
     enable_compression := enable_compression c;
     custom_headers := custom_headers c;
     proxy_settings := proxy_settings c |}.

Definition write_requests_per_second (x : float) : M value :=
  fun st =>
    (Return VNone,
     State (outside st)
       {| config_file := config_file (self st);
          config := with_requests_per_second x (config (self st));
          env_prefix := env_prefix (self st);
          _config_cache := _config_cache (self st) |}).

Definition failing_loader (filepath : string) : M value :=
  fun st => (Raise (KeyNotFound filepath), st).

End Subclass.

(** ** Programs that use a manager: sequences of method calls *)

Module Client.
Import Settings.

Inductive call :=
| Load_from_file (filepath : string)
| Save_to_file (filepath : string) (format : option string)
| Load_from_dict (config_dict : gmap string value)
| Apply_environment_overrides
| Get (key : string) (default_ : option value)
| Set_ (key : string) (val : value)
| Update (updates : gmap string value)
| Create_template (filepath : string)
| Validate
| Get_profile (profile_name : string)
| Set_profile (profile_name : string) (profile_config : gmap string value)
| Switch_profile (profile_name : string)
| Export_config
| Reload
| Watch_for_changes (callback : option (outcome ScraperConfig -> M value))
| Get_effective_config.

Definition run (c : call) : M value :=
  match c with
  | Load_from_file filepath => load_from_file filepath
  | Save_to_file filepath format => save_to_file filepath format
  | Load_from_dict config_dict => load_from_dict config_dict
  | Apply_environment_overrides => _apply_environment_overrides
  | Get key default_ => get key default_
  | Set_ key val => set key val
  | Update updates => update updates
  | Create_template filepath => create_template filepath
  | Validate => validate
  | Get_profile profile_name => get_profile profile_name
  | Set_profile profile_name profile_config =>
      set_profile profile_name profile_config
  | Switch_profile profile_name => switch_profile profile_name
  | Export_config => export_config
  | Reload => reload
  | Watch_for_changes callback => watch_for_changes callback
  | Get_effective_config => get_effective_config
  end.

(** The calls one after the other; an exception ends the program. *)
Fixpoint run_all (cs : list call) : M (list value) :=
  match cs with
  | [] => ret []
  | c :: rest =>
      v <- run c ;;
      vs <- run_all rest ;;
      ret (v :: vs)
  end.

(** [cm = ConfigManager(config_file)] followed by calls on [cm]. *)
Definition session (config_file : option string) (cs : list call)
    (w : world) : outcome (ConfigManager * list value) * world :=
  match ConfigManager_new config_file w with
  | (Raise e, w') => (Raise e, w')
  | (Return m, w') =>
      match run_all cs (State w' m) with
      | (Return vs, st) => (Return (self st, vs), outside st)
      | (Raise e, st) => (Raise e, outside st)
      end
  end.

End Client.

(** * Theorems *)

Module Import_facts.
Import Definition_time.

(** The only name the class body of ConfigManager cannot resolve is the one
    in the return annotation of [validate]. *)
Lemma ScraperConfig_class_is_built :
  raises (exec_body Eager
            (list_to_set ["os"; "yaml"; "json"; "Dict"; "Any"; "Optional";
                          "Union"; "dataclass"; "field"; "Path"]) ∅
            ScraperConfig_body) = false
  /\ raises (exec_member Eager ∅ ∅
               (FunctionDef "validate" [self]
                  (Some (Subscript (Name "List") [Name "str"])))) = true.
Proof. split; vm_compute; reflexivity. Qed.

Lemma import_with_deferred_annotations :
  raises (import_module Deferred site settings_py) = false
  /\ Import_resolution.binds (import_module Deferred site settings_py)
       "ConfigManager" = true
  /\ Import_resolution.binds (import_module Deferred site settings_py)
       "ScraperConfig" = true
  /\ Import_resolution.binds (import_module Deferred site settings_py)
       "List" = false.
Proof. repeat split; vm_compute; reflexivity. Qed.

Lemma import_once_List_is_imported :
  raises (import_module Eager site settings_py_importing_List) = false.
Proof. vm_compute. reflexivity. Qed.

(** C1.  Importing settings.py does not succeed when annotations are
    evaluated by the [def] statement: with every imported module present
    the class body of ConfigManager raises NameError for [List], the name
    in the return annotation of [validate] that the typing import leaves
    out; and whatever modules are installed, the import never returns. *)
Theorem import_settings_raises_NameError :
  import_module Eager site settings_py = Raise (NameError "List")
  /\ forall modules,
       raises (import_module Eager modules settings_py) = true.
Proof.
  split; [vm_compute; reflexivity|].
  intros modules.
  unfold import_module, settings_py.
  cbn [exec_module exec_stmt].
  destruct (modules !! "os"); [|reflexivity].
  destruct (modules !! "yaml"); [|reflexivity].
  destruct (modules !! "json"); [|reflexivity].
  destruct (modules !! "typing"); [|reflexivity].
  destruct (find _ _); [reflexivity|].
  destruct (modules !! "dataclasses"); [|reflexivity].
  destruct (find _ _); [reflexivity|].
  destruct (modules !! "pathlib"); [|reflexivity].
  destruct (find _ _); [reflexivity|].
  vm_compute. reflexivity.
Qed.

End Import_facts.

Module Settings_facts.
Import Settings.

(** Every method whose body is [pass] returns [None] and hands the state
    back as it got it. *)
Lemma pass_unchanged (st : state) : pass st = (Return VNone, st).
Proof. reflexivity. Qed.

Lemma ScraperConfig_new_defaults :
  ScraperConfig_new = Return ScraperConfig_defaults.
Proof. reflexivity. Qed.

Lemma __init__tail_unchanged (config_file : option string) (st : state) :
  __init__tail config_file st = (Return VNone, st).
Proof.
  unfold __init__tail, bind.
  destruct (truthy config_file); [|reflexivity].
  unfold os_path_exists.
  destruct (path_exists _ _); reflexivity.
Qed.

Lemma ConfigManager_new_fresh (config_file : option string) (w : world) :
  ConfigManager_new config_file w = (Return (fresh config_file), w).
Proof.
  unfold ConfigManager_new.
  rewrite ScraperConfig_new_defaults, __init__tail_unchanged.
  reflexivity.
Qed.

Lemma getattr_fields_defaults :
  Forall (fun f => getattr ScraperConfig_defaults f.1
                   = Some (f.2 ScraperConfig_defaults)) fields.
Proof. repeat constructor. Qed.

(** C2.  A file that sets requests_per_second to 2 and an environment that
    sets SCRAPER_REQUESTS_PER_SECOND to 5: the constructor finds the file,
    calls [load_from_file] and [_apply_environment_overrides], and the
    manager still holds the declared default 1.0, which is neither source's
    value; [get] answers [None]. *)
Theorem environment_override_not_applied :
  is_Some (files precedence_world !! "config.yaml")
  /\ environ precedence_world !! "SCRAPER_REQUESTS_PER_SECOND" = Some "5"
  /\ exists m,
       ConfigManager_new (Some "config.yaml") precedence_world
       = (Return m, precedence_world)
       /\ requests_per_second (config m) = 1.0%float
       /\ PrimFloat.eqb (requests_per_second (config m)) 5.0%float = false
       /\ PrimFloat.eqb (requests_per_second (config m)) 2.0%float = false
       /\ get "requests_per_second" None (State precedence_world m)
          = (Return VNone, State precedence_world m).
Proof.
  split; [eexists; reflexivity|].
  split; [reflexivity|].
  exists (fresh (Some "config.yaml")).
  rewrite ConfigManager_new_fresh.
  repeat split.
Qed.

(** C3.  With no file, no environment and no override every attribute of
    the manager's configuration holds its declared default, but
    [get(F.name)] answers [None] for every field F: 30 and "json" are what
    the attributes hold, not what [get] returns. *)
Theorem get_does_not_return_defaults (w : world) :
  exists m,
    ConfigManager_new None w = (Return m, w)
    /\ getattr (config m) "request_timeout" = Some (VInt 30)
    /\ result (get "request_timeout" None (State w m)) = Return VNone
    /\ getattr (config m) "output_format" = Some (VStr "json")
    /\ result (get "output_format" None (State w m)) = Return VNone
    /\ Forall (fun f =>
                 getattr (config m) f.1 = Some (f.2 ScraperConfig_defaults)
                 /\ result (get f.1 None (State w m)) = Return VNone)
              fields.
Proof.
  exists (fresh None).
  rewrite ConfigManager_new_fresh.
  repeat split.
  eapply Forall_impl; [apply getattr_fields_defaults|].
  intros f Hf. split; [exact Hf | reflexivity].
Qed.

(** C4.  [update] reports nothing and applies nothing: the batch with two
    invalid values returns [None] without any violation, and a batch with a
    valid value returns [None] and leaves request_timeout at 30. *)
Theorem update_reports_and_applies_nothing :
  (forall st,
     update bad_batch st = (Return VNone, st)
     /\ update good_batch st = (Return VNone, st))
  /\ request_timeout
       (config (self (after (update good_batch
                               (State empty_world (fresh None)))))) = 30%Z
  /\ good_batch !! "request_timeout" = Some (VInt 10).
Proof. repeat split. Qed.

(** C5, as the claim states it, at a key that no field has and with no
    default supplied: the call returns [None], it does not signal
    KeyNotFound. *)
Lemma get_missing_key_signals_nothing :
  getattr (config (fresh None)) "no.such.key" = None
  /\ result (get "no.such.key" None (State empty_world (fresh None)))
     = Return VNone
  /\ result (get "no.such.key" None (State empty_world (fresh None)))
     <> Raise (KeyNotFound "no.such.key").
Proof. repeat split. discriminate. Qed.

(** C5, amended.  [get(key, default)] never raises and changes nothing,
    whether or not the key exists and whether or not a default is given;
    an omitted default is [None], so the call without a default is the
    call with default [None]. *)
Theorem get_never_raises (st : state) (key : string)
    (default_ : option value) :
  raises (result (get key default_ st)) = false
  /\ after (get key default_ st) = st
  /\ get key None st = get key (Some VNone) st.
Proof. repeat split. Qed.

(** C6.  Two calls of [reload] in a row, nothing else happening in between:
    both return, and the state after the second (configuration, cache,
    file path, and the files and environment themselves) is the state
    after the first. *)
Theorem reload_idempotent (st : state) :
  let first := reload st in
  let second := reload (after first) in
  result first = Return VNone
  /\ result second = Return VNone
  /\ config (self (after second)) = config (self (after first))
  /\ after second = after first
  /\ outside (after first) = outside st.
Proof. repeat split. Qed.

(** C7.  A manager whose configuration holds requests_per_second 5.0 saves
    to a path, and a second manager loads that path.  [save_to_file] writes
    nothing: the path is not on disk afterwards, as for every state, path
    and format the world after the call is the world before it.
    [load_from_file] reads nothing: the second manager has the default 1.0,
    not the 5.0 that was to be saved, so the configuration that went into
    the save does not come back from the load. *)
Theorem save_then_load_loses_the_configuration :
  let saver :=
    {| config_file := None;
       config := Subclass.with_requests_per_second 5.0%float
                   ScraperConfig_defaults;
       env_prefix := "SCRAPER_";
       _config_cache := ∅ |} in
  let saved := save_to_file "out.yaml" (Some "yaml")
                 (State empty_world saver) in
  let loaded := load_from_file "out.yaml"
                  (State (outside (after saved)) (fresh None)) in
  requests_per_second (config saver) = 5.0%float
  /\ result saved = Return VNone
  /\ path_exists (outside (after saved)) "out.yaml" = false
  /\ files (outside (after saved)) !! "out.yaml" = None
  /\ ConfigManager_new None (outside (after saved))
     = (Return (fresh None), outside (after saved))
  /\ result loaded = Return VNone
  /\ requests_per_second (config (self (after loaded))) = 1.0%float
  /\ PrimFloat.eqb (requests_per_second (config (self (after loaded))))
       (requests_per_second (config saver)) = false
  /\ (forall st path format,
        outside (after (save_to_file path format st)) = outside st)
  /\ (forall st path,
        config (self (after (load_from_file path st))) = config (self st)).
Proof. repeat split. Qed.

(** C8.  [set("rate_limit.requests_per_second", 3)] leaves every attribute
    as it was, concurrent_requests among them, and the addressed value as
    well: requests_per_second is still 1.0 on a new manager, the cache is
    still empty, and [get] of the same path answers [None]. *)
Theorem set_changes_no_leaf :
  (forall st,
     set "rate_limit.requests_per_second" (VInt 3) st = (Return VNone, st))
  /\ let st0 := State empty_world (fresh None) in
     let st1 := after (set "rate_limit.requests_per_second" (VInt 3) st0) in
     concurrent_requests (config (self st1)) = 1%Z
     /\ requests_per_second (config (self st1)) = 1.0%float
     /\ _config_cache (self st1) = ∅
     /\ result (get "rate_limit.requests_per_second" None st1)
        = Return VNone.
Proof. repeat split. Qed.



(** C10.  The constructor returns a manager whose configuration is the
    all-defaults [ScraperConfig()], and load_from_file, load_from_dict,
    set, update, reload, switch_profile and _apply_environment_overrides
    each return [None] and leave the whole state as it was: config,
    config_file and _config_cache of the manager, and the world. *)
Theorem stubs_never_mutate_state :
  (forall config_file w,
     exists m,
       ConfigManager_new config_file w = (Return m, w)
       /\ ScraperConfig_new = Return (config m)
       /\ config m = ScraperConfig_defaults)
  /\ forall st : state,
       (forall filepath, load_from_file filepath st = (Return VNone, st))
       /\ (forall config_dict,
             load_from_dict config_dict st = (Return VNone, st))
       /\ (forall key val, set key val st = (Return VNone, st))
       /\ (forall updates, update updates st = (Return VNone, st))
       /\ reload st = (Return VNone, st)
       /\ (forall profile_name,
             switch_profile profile_name st = (Return VNone, st))
       /\ _apply_environment_overrides st = (Return VNone, st).
Proof.
  split.
  - intros cf w. exists (fresh cf).
    rewrite ConfigManager_new_fresh. repeat split.
  - intros st. repeat split.
Qed.

End Settings_facts.

Module Import_resolution_facts.
Import Definition_time Import_resolution.

Lemma find_unexported_none (exports : gset string) (names : list string) :
  forallb (fun n => bool_decide (n ∈ exports)) names = true ->
  find (fun n => negb (bool_decide (n ∈ exports))) names = None.
Proof.
  induction names as [|n names IH]; simpl; intros H; [reflexivity|].
  apply andb_prop in H as [Hn Hrest].
  rewrite Hn. simpl. auto.
Qed.

Lemma site_serves_settings : imports_ok site settings_py = true.
Proof. vm_compute. reflexivity. Qed.

(** What [imports_ok] says about settings.py, import by import. *)
Lemma imports_ok_settings (modules : gmap string (gset string)) :
  imports_ok modules settings_py = true ->
  is_Some (modules !! "os") /\ is_Some (modules !! "yaml")
  /\ is_Some (modules !! "json")
  /\ (exists ex, modules !! "typing" = Some ex
        /\ find (fun n => negb (bool_decide (n ∈ ex)))
             ["Dict"; "Any"; "Optional"; "Union"] = None)
  /\ (exists ex, modules !! "dataclasses" = Some ex
        /\ find (fun n => negb (bool_decide (n ∈ ex)))
             ["dataclass"; "field"] = None)
  /\ (exists ex, modules !! "pathlib" = Some ex
        /\ find (fun n => negb (bool_decide (n ∈ ex))) ["Path"] = None).
Proof.
  unfold imports_ok, settings_py. cbn [forallb import_ok].
  rewrite !andb_true_iff, !bool_decide_eq_true.
  intros (_ & Hos & Hyaml & Hjson & Htyping & Hdc & Hpath & _).
  repeat split; try assumption.
  - destruct (modules !! "typing") as [ex|]; [|discriminate].
    exists ex. split; [reflexivity|]. now apply find_unexported_none.
  - destruct (modules !! "dataclasses") as [ex|]; [|discriminate].
    exists ex. split; [reflexivity|]. now apply find_unexported_none.
  - destruct (modules !! "pathlib") as [ex|]; [|discriminate].
    exists ex. split; [reflexivity|]. now apply find_unexported_none.
Qed.

(** X1.  On every interpreter that can serve the six import statements,
    importing settings.py with annotations evaluated at definition stops
    with NameError for [List], and with no other error. *)
Theorem eager_import_raises_exactly_List
    (modules : gmap string (gset string))
    (Hserved : imports_ok modules settings_py = true) :
  import_module Eager modules settings_py = Raise (NameError "List").
Proof.
  apply imports_ok_settings in Hserved
    as ([? Hos] & [? Hyaml] & [? Hjson] & (? & Hty & Fty) & (? & Hdc & Fdc)
        & (? & Hpa & Fpa)).
  unfold import_module, settings_py.
  cbn [exec_module exec_stmt].
  rewrite Hos, Hyaml, Hjson, Hty, Fty, Hdc, Fdc, Hpa, Fpa.
  vm_compute. reflexivity.
Qed.

Lemma eager_import_raises_exactly_List_witness :
  imports_ok site settings_py = true
  /\ import_module Eager site settings_py = Raise (NameError "List").
Proof.
  split; [vm_compute; reflexivity|].
  apply (eager_import_raises_exactly_List site).
  vm_compute; reflexivity.
Defined.

(** X2.  On the same interpreters the import returns when annotations are
    not evaluated at definition: both classes and the imported names are
    bound in the module, and [List] is not. *)
Theorem deferred_import_succeeds
    (modules : gmap string (gset string))
    (Hserved : imports_ok modules settings_py = true) :
  raises (import_module Deferred modules settings_py) = false
  /\ forallb (binds (import_module Deferred modules settings_py))
       ["os"; "yaml"; "json"; "Dict"; "Any"; "Optional"; "Union";
        "dataclass"; "field"; "Path"; "ScraperConfig"; "ConfigManager"]
     = true
  /\ binds (import_module Deferred modules settings_py) "List" = false.
Proof.
  apply imports_ok_settings in Hserved
    as ([? Hos] & [? Hyaml] & [? Hjson] & (? & Hty & Fty) & (? & Hdc & Fdc)
        & (? & Hpa & Fpa)).
  unfold import_module, settings_py.
  cbn [exec_module exec_stmt].
  rewrite Hos, Hyaml, Hjson, Hty, Fty, Hdc, Fdc, Hpa, Fpa.
  repeat split; vm_compute; reflexivity.
Qed.

Lemma deferred_import_succeeds_witness :
  imports_ok site settings_py = true
  /\ raises (import_module Deferred site settings_py) = false
  /\ forallb (binds (import_module Deferred site settings_py))
       ["os"; "yaml"; "json"; "Dict"; "Any"; "Optional"; "Union";
        "dataclass"; "field"; "Path"; "ScraperConfig"; "ConfigManager"]
     = true
  /\ binds (import_module Deferred site settings_py) "List" = false.
Proof.
  split; [vm_compute; reflexivity|].
  apply (deferred_import_succeeds site).
  vm_compute; reflexivity.
Defined.

Lemma forallb_of_find_none (exports : gset string) (names : list string) :
  find (fun n => negb (bool_decide (n ∈ exports))) names = None ->
  forallb (fun n => bool_decide (n ∈ exports)) names = true.
Proof.
  induction names as [|n names IH]; simpl; [reflexivity|].
  destruct (bool_decide (n ∈ exports)); simpl; [exact IH | discriminate].
Qed.

Lemma returned_stmt_was_served (mode : annotation_mode)
    (modules : gmap string (gset string)) (globals : gset string)
    (s : stmt) :
  raises (exec_stmt mode modules globals s) = false ->
  import_ok modules s = true.
Proof.
  destruct s as [|m|m names|ds name body]; simpl; try reflexivity.
  - destruct (modules !! m); [|discriminate].
    intros _. apply bool_decide_eq_true_2. eexists; reflexivity.
  - destruct (modules !! m) as [ex|]; [|discriminate].
    destruct (find _ names) eqn:F; [discriminate|].
    intros _. now apply forallb_of_find_none.
Qed.

Lemma returned_module_was_served (mode : annotation_mode)
    (modules : gmap string (gset string)) (m : list stmt) :
  forall globals,
    raises (exec_module mode modules globals m) = false ->
    imports_ok modules m = true.
Proof.
  unfold imports_ok.
  induction m as [|s rest IH]; intros globals; simpl; [reflexivity|].
  destruct (exec_stmt mode modules globals s) as [globals'|e] eqn:E;
    [|discriminate].
  intros Hrest.
  rewrite (returned_stmt_was_served mode modules globals s)
    by (rewrite E; reflexivity).
  simpl. exact (IH globals' Hrest).
Qed.

(** X3.  An interpreter that cannot serve one of the import statements
    does not import the module either, whichever way annotations are
    evaluated. *)
Theorem unserved_import_never_returns
    (mode : annotation_mode) (modules : gmap string (gset string))
    (Hunserved : imports_ok modules settings_py = false) :
  raises (import_module mode modules settings_py) = true.
Proof.
  destruct (raises (import_module mode modules settings_py)) eqn:R;
    [reflexivity|].
  apply returned_module_was_served in R. congruence.
Qed.

Lemma unserved_import_never_returns_witness :
  imports_ok (delete "yaml" site) settings_py = false
  /\ raises (import_module Deferred (delete "yaml" site) settings_py) = true.
Proof.
  split; [vm_compute; reflexivity|].
  apply (unserved_import_never_returns Deferred (delete "yaml" site)).
  vm_compute; reflexivity.
Defined.

End Import_resolution_facts.

Module Subclass_facts.
Import Settings Subclass.

Section Overridden.

Variable load_from_file' : string -> M value.
Variable _apply_environment_overrides' : M value.

(** With the methods of ConfigManager itself the bodies are the ones of
    the base class. *)
Lemma base_class_constructor (config_file : option string) (w : world) :
  ConfigManager_new' load_from_file _apply_environment_overrides
    config_file w
  = ConfigManager_new config_file w.
Proof. reflexivity. Qed.

Lemma path_exists_true (path : string) (st : state) :
  is_Some (files (outside st) !! path) ->
  os_path_exists path st = (Return true, st).
Proof.
  intros H. unfold os_path_exists, path_exists.
  now rewrite bool_decide_eq_true_2.
Qed.

Lemma tail_without_file (config_file : option string) (st : state) :
  truthy config_file = false
  \/ path_exists (outside st) (default "" config_file) = false ->
  __init__tail' load_from_file' _apply_environment_overrides' config_file st
  = (_apply_environment_overrides' ;; ret VNone) st.
Proof.
  intros Hskip. unfold __init__tail'.
  destruct (truthy config_file) eqn:T.
  - destruct Hskip as [?|Hnone]; [discriminate|].
    unfold bind, os_path_exists. cbv beta zeta.
    rewrite Hnone. reflexivity.
  - reflexivity.
Qed.

(** A path under which something other than a regular file exists, a
    directory for one, passes the guard: the loader is called with it. *)
Lemma tail_with_existing_path (path : string) (st : state) :
  path <> "" ->
  path_exists (outside st) path = true ->
  __init__tail' load_from_file' _apply_environment_overrides' (Some path) st
  = (load_from_file' path ;; _apply_environment_overrides' ;; ret VNone) st.
Proof.
  intros Hpath Hthere. unfold __init__tail', truthy.
  apply String.eqb_neq in Hpath. rewrite Hpath.
  unfold bind, os_path_exists. cbv beta zeta iota.
  cbn [negb default from_option id].
  rewrite Hthere. reflexivity.
Qed.

(** X5.  A non-empty path with a file behind it: the constructor runs the
    loader on the new object and then the environment step on what the
    loader left, and the manager it returns is the one the environment
    step left; so what the environment step writes is what stays. *)
Theorem loader_runs_before_environment
    (path : string) (w : world) (v1 v2 : value) (st1 st2 : state)
    (Hpath : path <> "")
    (Hfile : is_Some (files w !! path))
    (Hload : load_from_file' path (State w (fresh (Some path)))
             = (Return v1, st1))
    (Henv : _apply_environment_overrides' st1 = (Return v2, st2)) :
  ConfigManager_new' load_from_file' _apply_environment_overrides'
    (Some path) w
  = (Return (self st2), outside st2).
Proof.
  unfold ConfigManager_new'.
  rewrite Settings_facts.ScraperConfig_new_defaults.
  change (State w _) with (State w (fresh (Some path))).
  unfold __init__tail', truthy.
  apply String.eqb_neq in Hpath. rewrite Hpath.
  unfold bind. cbv beta zeta iota. cbn [negb default from_option id].
  rewrite path_exists_true by exact Hfile.
  rewrite Hload, Henv. reflexivity.
Qed.

(** X6.  An exception of the loader leaves the constructor as it is
    raised: no manager is returned and the environment step is not run. *)
Theorem loader_exception_aborts_construction
    (path : string) (w : world) (e : exn) (st1 : state)
    (Hpath : path <> "")
    (Hfile : is_Some (files w !! path))
    (Hload : load_from_file' path (State w (fresh (Some path)))
             = (Raise e, st1)) :
  ConfigManager_new' load_from_file' _apply_environment_overrides'
    (Some path) w
  = (Raise e, outside st1).
Proof.
  unfold ConfigManager_new'.
  rewrite Settings_facts.ScraperConfig_new_defaults.
  change (State w _) with (State w (fresh (Some path))).
  unfold __init__tail', truthy.
  apply String.eqb_neq in Hpath. rewrite Hpath.
  unfold bind. cbv beta zeta iota. cbn [negb default from_option id].
  rewrite path_exists_true by exact Hfile.
  rewrite Hload. reflexivity.
Qed.

(** X7.  An exception of the environment step leaves the constructor as
    well: when there is no path, the path is empty, or [os.path.exists]
    finds nothing under it (no file, no directory, no other entry), the
    loader is not called, the exception of the environment step is the
    constructor's, and no manager is returned. *)
Theorem environment_exception_aborts_construction
    (config_file : option string) (w : world) (e : exn) (st2 : state)
    (Hskip : truthy config_file = false
             \/ path_exists w (default "" config_file) = false)
    (Henv : _apply_environment_overrides' (State w (fresh config_file))
            = (Raise e, st2)) :
  ConfigManager_new' load_from_file' _apply_environment_overrides'
    config_file w
  = (Raise e, outside st2).
Proof.
  unfold ConfigManager_new'.
  rewrite Settings_facts.ScraperConfig_new_defaults.
  change (State w _) with (State w (fresh config_file)).
  rewrite tail_without_file by exact Hskip.
  unfold bind. rewrite Henv. reflexivity.
Qed.

End Overridden.

(** X4.  No path, the empty path, or a path under which [os.path.exists]
    finds nothing (no regular file, no directory, no other entry): the
    constructor does not call the loader; what it runs is the environment
    step alone, so its result is the same under any two loaders. *)
Theorem loader_skipped_without_file
    (load_from_file' other_loader : string -> M value)
    (_apply_environment_overrides' : M value)
    (config_file : option string) (st : state)
    (Hskip : truthy config_file = false
             \/ path_exists (outside st) (default "" config_file) = false) :
  __init__tail' load_from_file' _apply_environment_overrides' config_file st
  = (_apply_environment_overrides' ;; ret VNone) st
  /\ __init__tail' load_from_file' _apply_environment_overrides'
       config_file st
     = __init__tail' other_loader _apply_environment_overrides'
         config_file st.
Proof.
  rewrite !tail_without_file by exact Hskip. split; reflexivity.
Qed.

Lemma loader_skipped_without_file_witness :
  (truthy (Some "missing.yaml") = false
   \/ path_exists
        (outside (State empty_world (fresh (Some "missing.yaml"))))
        (default "" (Some "missing.yaml")) = false)
  /\ __init__tail' failing_loader _apply_environment_overrides
       (Some "missing.yaml") (State empty_world (fresh (Some "missing.yaml")))
     = (_apply_environment_overrides ;; ret VNone)
         (State empty_world (fresh (Some "missing.yaml")))
  /\ __init__tail' failing_loader _apply_environment_overrides
       (Some "missing.yaml") (State empty_world (fresh (Some "missing.yaml")))
     = __init__tail' load_from_file _apply_environment_overrides
         (Some "missing.yaml")
         (State empty_world (fresh (Some "missing.yaml"))).
Proof.
  split; [right; reflexivity|].
  apply (loader_skipped_without_file failing_loader load_from_file
           _apply_environment_overrides (Some "missing.yaml")
           (State empty_world (fresh (Some "missing.yaml")))).
  right; reflexivity.
Defined.

(** A directory under the path is enough for the guard: the constructor
    calls the loader with it, and a loader that raises on it ends the
    construction. *)
Lemma directory_path_reaches_the_loader :
  let w := World ∅ ∅ {[ "conf.d" ]} in
  files w !! "conf.d" = None
  /\ path_exists w "conf.d" = true
  /\ ConfigManager_new' failing_loader _apply_environment_overrides
       (Some "conf.d") w
     = (Raise (KeyNotFound "conf.d"), w).
Proof. repeat split. Qed.

Lemma loader_runs_before_environment_witness :
  let new_object := State precedence_world (fresh (Some "config.yaml")) in
  let st1 := after (write_requests_per_second 2.0%float new_object) in
  let st2 := after (write_requests_per_second 5.0%float st1) in
  "config.yaml" <> ""
  /\ is_Some (files precedence_world !! "config.yaml")
  /\ write_requests_per_second 2.0%float new_object = (Return VNone, st1)
  /\ write_requests_per_second 5.0%float st1 = (Return VNone, st2)
  /\ ConfigManager_new' (fun _ => write_requests_per_second 2.0%float)
       (write_requests_per_second 5.0%float) (Some "config.yaml")
       precedence_world
     = (Return (self st2), outside st2)
  /\ requests_per_second (config (self st2)) = 5.0%float.
Proof.
  intros new_object st1 st2.
  split; [discriminate|].
  split; [eexists; reflexivity|].
  split; [reflexivity|].
  split; [reflexivity|].
  split; [|reflexivity].
  apply (loader_runs_before_environment
           (fun _ => write_requests_per_second 2.0%float)
           (write_requests_per_second 5.0%float)
           "config.yaml" precedence_world VNone VNone st1 st2).
  - discriminate.
  - eexists; reflexivity.
  - reflexivity.
  - reflexivity.
Defined.

Lemma loader_exception_aborts_construction_witness :
  let new_object := State precedence_world (fresh (Some "config.yaml")) in
  "config.yaml" <> ""
  /\ is_Some (files precedence_world !! "config.yaml")
  /\ failing_loader "config.yaml" new_object
     = (Raise (KeyNotFound "config.yaml"), new_object)
  /\ ConfigManager_new' failing_loader (write_requests_per_second 5.0%float)
       (Some "config.yaml") precedence_world
     = (Raise (KeyNotFound "config.yaml"), outside new_object).
Proof.
  intros new_object.
  split; [discriminate|].
  split; [eexists; reflexivity|].
  split; [reflexivity|].
  apply (loader_exception_aborts_construction
           failing_loader (write_requests_per_second 5.0%float)
           "config.yaml" precedence_world (KeyNotFound "config.yaml")
           new_object).
  - discriminate.
  - eexists; reflexivity.
  - reflexivity.
Defined.

Lemma environment_exception_aborts_construction_witness :
  (truthy None = false \/ path_exists empty_world (default "" None) = false)
  /\ failing_loader "environment" (State empty_world (fresh None))
     = (Raise (KeyNotFound "environment"), State empty_world (fresh None))
  /\ ConfigManager_new' load_from_file (failing_loader "environment")
       None empty_world
     = (Raise (KeyNotFound "environment"),
        outside (State empty_world (fresh None))).
Proof.
  split; [left; reflexivity|].
  split; [reflexivity|].
  apply (environment_exception_aborts_construction
           load_from_file (failing_loader "environment") None empty_world
           (KeyNotFound "environment") (State empty_world (fresh None))).
  - left; reflexivity.
  - reflexivity.
Defined.

End Subclass_facts.

Module Client_facts.
Import Settings Client.

Lemma run_unchanged (c : call) (st : state) :
  run c st = (Return VNone, st).
Proof. destruct c; reflexivity. Qed.

Lemma run_all_unchanged (cs : list call) (st : state) :
  run_all cs st = (Return (replicate (length cs) VNone), st).
Proof.
  induction cs as [|c cs IH]; [reflexivity|].
  cbn [run_all length replicate]. unfold bind.
  rewrite run_unchanged, IH. reflexivity.
Qed.

Lemma session_unchanged (config_file : option string) (cs : list call)
    (w : world) :
  session config_file cs w
  = (Return (fresh config_file, replicate (length cs) VNone), w).
Proof.
  unfold session.
  rewrite Settings_facts.ConfigManager_new_fresh, run_all_unchanged.
  reflexivity.
Qed.

(** X8.  No program of method calls changes anything or raises: from any
    manager, with any configuration a caller may have put into it, and any
    files and environment, every call of every method returns [None] and
    the manager and the world after the last call are those before the
    first.  That covers the methods annotated to return a list, a dict or
    a ScraperConfig, and a callback given to [watch_for_changes], which is
    never called. *)
Theorem calls_return_None_and_change_nothing (cs : list call) (st : state) :
  result (run_all cs st) = Return (replicate (length cs) VNone)
  /\ after (run_all cs st) = st
  /\ Forall (fun c => run c st = (Return VNone, st)) cs.
Proof.
  rewrite run_all_unchanged. repeat split.
  apply Forall_forall. intros c _. apply run_unchanged.
Qed.

(** X9.  Whatever path the manager was built with, whatever the files and
    the environment hold, and whatever is called on it afterwards, the
    manager has the declared defaults in [config], the path it was given
    in [config_file], "SCRAPER_" as prefix and an empty cache, and the
    files and the environment are as they were. *)
Theorem session_keeps_defaults (config_file : option string)
    (cs : list call) (w : world) :
  exists m vs,
    session config_file cs w = (Return (m, vs), w)
    /\ config m = ScraperConfig_defaults
    /\ Settings.config_file m = config_file
    /\ env_prefix m = "SCRAPER_"
    /\ _config_cache m = ∅
    /\ vs = replicate (length cs) VNone.
Proof.
  exists (fresh config_file), (replicate (length cs) VNone).
  rewrite session_unchanged. repeat split.
Qed.

End Client_facts.
